(** * UnityMCP server entry point (Python/server.py)

    A shallow embedding of the module [server.py]: its global connection
    state, the lifespan context manager [server_lifespan], the statements run
    at import time, and the prompt [asset_creation_strategy].

    The module is effectful glue, so it is embedded in a small monad that
    threads the module's globals, accumulates the trace of the effects the
    module performs (log records, calls into the imported modules, writes to
    the global, the suspension at [yield]) and carries Python exceptions. *)

From Stdlib Require Import String Ascii List Bool Arith Lia.
Import ListNotations.
Local Open Scope string_scope.
Local Open Scope list_scope.

(** ** Python values the module handles *)

(** An exception object, as far as this module looks at one: whether it is an
    instance of [Exception] (what [except Exception] tests; [KeyboardInterrupt],
    [SystemExit] and [asyncio.CancelledError] are not) and its [str(e)]. *)
Record exn : Type := Exn {
  exn_class : string;
  is_Exception : bool;
  str : string
}.

(** The result of evaluating a Python call: a value, or a raised exception. *)
Inductive result (A : Type) : Type :=
| Return (a : A)
| Raise (e : exn).
Arguments Return {A} a.
Arguments Raise {A} e.

(** An instance of the imported class [UnityConnection].  The class body is
    not part of this module; an object is known here by its identity and by
    the two things [server_lifespan] does with it: test its truth value
    ([if _unity_connection:]) and call its [disconnect] method. *)
Record UnityConnection : Type := {
  conn_id : nat;
  conn_bool : bool;                 (* bool(conn) *)
  disconnect_raises : option exn    (* None: conn.disconnect() returns *)
}.

(** The dictionary handed over at [yield]: [{"bridge": _unity_connection}]. *)
Definition context : Type := list (string * option UnityConnection).

(** The [FastMCP] server object: constructor arguments and what has been
    registered on it so far. *)
Record FastMCP : Type := {
  mcp_name : string;
  mcp_description : string;
  mcp_lifespan : string;
  mcp_tools : list string;
  mcp_prompts : list string
}.

(** ** Module globals and effects *)

Record Globals : Type := {
  _unity_connection : option UnityConnection;
  mcp : option FastMCP
}.

Inductive level : Type := INFO | WARNING.

Inductive event : Type :=
| Log (lvl : level) (msg : string)               (* logger.info / logger.warning *)
| Call_basicConfig                               (* logging.basicConfig(...) *)
| Call_FastMCP (name : string)                   (* FastMCP(name, ...) *)
| Call_register_all_tools                        (* register_all_tools(mcp) *)
| Register_prompt (name : string)                (* @mcp.prompt() *)
| Call_get_unity_connection                      (* get_unity_connection() *)
| Assign (v : option UnityConnection)            (* _unity_connection = v *)
| Yield (ctx : context)                          (* yield ctx *)
| Call_disconnect (receiver : option UnityConnection). (* receiver.disconnect() *)

(** One execution: the globals it leaves, the effects it performed in order,
    and how it ended. *)
Record Run (A : Type) : Type := {
  final : Globals;
  events : list event;
  outcome : result A
}.
Arguments final {A} r.
Arguments events {A} r.
Arguments outcome {A} r.

Definition M (A : Type) : Type := Globals -> Run A.

Definition ret {A} (a : A) : M A :=
  fun g => {| final := g; events := []; outcome := Return a |}.

Definition raise {A} (e : exn) : M A :=
  fun g => {| final := g; events := []; outcome := Raise e |}.

Definition bind {A B} (m : M A) (k : A -> M B) : M B :=
  fun g =>
    let r := m g in
    match outcome r with
    | Return a =>
        let r' := k a (final r) in
        {| final := final r'; events := events r ++ events r'; outcome := outcome r' |}
    | Raise e =>
        {| final := final r; events := events r; outcome := Raise e |}
    end.

Notation "x <- m ;; k" := (bind m (fun x => k))
  (at level 61, m at next level, right associativity).
Notation "m ;; k" := (bind m (fun _ => k))
  (at level 61, right associativity).

(** [try: m  except Exception as e: h e]: the handler runs, in the state the
    body left, only for exceptions that are instances of [Exception]. *)
Definition try_except_Exception {A} (m : M A) (h : exn -> M A) : M A :=
  fun g =>
    let r := m g in
    match outcome r with
    | Return a => r
    | Raise e =>
        if is_Exception e then
          let r' := h e (final r) in
          {| final := final r'; events := events r ++ events r'; outcome := outcome r' |}
        else r
    end.

(** [try: m  finally: f]: [f] always runs; an exception of [f] replaces the
    outcome of [m], otherwise the outcome of [m] stands. *)
Definition try_finally {A} (m : M A) (f : M unit) : M A :=
  fun g =>
    let r := m g in
    let r' := f (final r) in
    {| final := final r';
       events := events r ++ events r';
       outcome := match outcome r' with
                  | Return _ => outcome r
                  | Raise e' => Raise e'
                  end |}.

Definition emit (ev : event) : M unit :=
  fun g => {| final := g; events := [ev]; outcome := Return tt |}.

Definition logger_info (msg : string) : M unit := emit (Log INFO msg).
Definition logger_warning (msg : string) : M unit := emit (Log WARNING msg).

Definition read_unity_connection : M (option UnityConnection) :=
  fun g => {| final := g; events := []; outcome := Return (_unity_connection g) |}.

Definition set_unity_connection (v : option UnityConnection) (g : Globals) : Globals :=
  {| _unity_connection := v; mcp := mcp g |}.

Definition assign_unity_connection (v : option UnityConnection) : M unit :=
  fun g => {| final := set_unity_connection v g;
              events := [Assign v];
              outcome := Return tt |}.

(** Truth value of a name that holds [None] or an object. *)
Definition truth (o : option UnityConnection) : bool :=
  match o with
  | None => false
  | Some c => conn_bool c
  end.

Definition AttributeError_NoneType_disconnect : exn :=
  Exn "AttributeError" true "'NoneType' object has no attribute 'disconnect'".

(** [receiver.disconnect()]; on [None] the attribute lookup fails. *)
Definition call_disconnect (receiver : option UnityConnection) : M unit :=
  emit (Call_disconnect receiver) ;;
  match receiver with
  | None => raise AttributeError_NoneType_disconnect
  | Some c =>
      match disconnect_raises c with
      | None => ret tt
      | Some e => raise e
      end
  end.

(** ** The world outside the module

    What one run of the server meets: what [get_unity_connection()] does when
    it is called, and what the block under [async with] (the framework serving
    requests) does while the generator is suspended at [yield].  The block
    receives the yielded context; it may rebind the module's global, and it
    either completes or raises into the generator. *)
Record Env : Type := {
  get_unity_connection_does : result UnityConnection;
  with_block : context -> option UnityConnection ->
               option UnityConnection * result unit
}.

Definition get_unity_connection (env : Env) : M UnityConnection :=
  fun g => {| final := g;
              events := [Call_get_unity_connection];
              outcome := get_unity_connection_does env |}.

(** [yield ctx]: the generator suspends, the block under [async with] runs,
    and the generator is resumed normally or with the block's exception. *)
Definition yield_ (env : Env) (ctx : context) : M unit :=
  fun g =>
    let '(v, r) := with_block env ctx (_unity_connection g) in
    {| final := set_unity_connection v g;
       events := [Yield ctx];
       outcome := r |}.

(** ** server_lifespan (lines 20-39) *)

Definition server_lifespan (env : Env) (server : FastMCP) : M unit :=
  logger_info "UnityMCP server starting up" ;;
  try_except_Exception
    (c <- get_unity_connection env ;;
     assign_unity_connection (Some c) ;;
     logger_info "Connected to Unity on startup")
    (fun e =>
     logger_warning ("Could not connect to Unity on startup: " ++ str e) ;;
     assign_unity_connection None) ;;
  try_finally
    (v <- read_unity_connection ;;
     yield_ env [("bridge", v)])
    (v <- read_unity_connection ;;
     (if truth v then
        (receiver <- read_unity_connection ;;
         call_disconnect receiver) ;;
        assign_unity_connection None
      else ret tt) ;;
     logger_info "UnityMCP server shut down").

(** The three blocks of [server_lifespan], named so that each can be run on
    its own: the code before the second [try], the body of that [try], and
    its [finally] clause.  [server_lifespan_blocks] below shows that
    [server_lifespan] is their composition. *)
Definition startup (env : Env) : M unit :=
  logger_info "UnityMCP server starting up" ;;
  try_except_Exception
    (c <- get_unity_connection env ;;
     assign_unity_connection (Some c) ;;
     logger_info "Connected to Unity on startup")
    (fun e =>
     logger_warning ("Could not connect to Unity on startup: " ++ str e) ;;
     assign_unity_connection None).

Definition serve (env : Env) : M unit :=
  v <- read_unity_connection ;;
  yield_ env [("bridge", v)].

Definition teardown : M unit :=
  v <- read_unity_connection ;;
  (if truth v then
     (receiver <- read_unity_connection ;;
      call_disconnect receiver) ;;
     assign_unity_connection None
   else ret tt) ;;
  logger_info "UnityMCP server shut down".

(** ** Import-time statements (lines 10-18, 41-49, 53) and the entry point *)

Definition NameError_mcp : exn :=
  Exn "NameError" true "name 'mcp' is not defined".

Definition read_mcp : M FastMCP :=
  fun g =>
    match mcp g with
    | Some m => ret m g
    | None => raise NameError_mcp g
    end.

Definition assign_mcp (m : FastMCP) : M unit :=
  fun g => {| final := {| _unity_connection := _unity_connection g; mcp := Some m |};
              events := [];
              outcome := Return tt |}.

(** [FastMCP(name, description=..., lifespan=...)]: a server with nothing
    registered on it yet. *)
Definition fresh_FastMCP (name description lifespan : string) : FastMCP :=
  {| mcp_name := name;
     mcp_description := description;
     mcp_lifespan := lifespan;
     mcp_tools := [];
     mcp_prompts := [] |}.

Definition new_FastMCP (name description lifespan : string) : M FastMCP :=
  emit (Call_FastMCP name) ;;
  ret (fresh_FastMCP name description lifespan).

(** [@mcp.prompt()] applied to a function called [name]. *)
Definition add_prompt (name : string) (m : FastMCP) : FastMCP :=
  {| mcp_name := mcp_name m;
     mcp_description := mcp_description m;
     mcp_lifespan := mcp_lifespan m;
     mcp_tools := mcp_tools m;
     mcp_prompts := mcp_prompts m ++ [name] |}.

Definition mcp_prompt (name : string) : M unit :=
  m <- read_mcp ;;
  emit (Register_prompt name) ;;
  assign_mcp (add_prompt name m).

Section Imports.

(** [tools.register_all_tools] is imported; the package is not part of this
    module.  It is taken as what it does to the server object it is given. *)
Variable register_all_tools : FastMCP -> FastMCP.

Definition call_register_all_tools : M unit :=
  m <- read_mcp ;;
  emit Call_register_all_tools ;;
  assign_mcp (register_all_tools m).

(** The statements executed when the module is imported. *)
Definition module_init : M unit :=
  emit Call_basicConfig ;;
  assign_unity_connection None ;;
  (m <- new_FastMCP "UnityMCP"
                    "Unity Editor integration via Model Context Protocol"
                    "server_lifespan" ;;
   assign_mcp m) ;;
  call_register_all_tools ;;
  mcp_prompt "asset_creation_strategy".

(** [mcp.run(transport='stdio')]: the framework enters the lifespan the
    server was built with, passing the server, and serves inside it. *)
Definition mcp_run (env : Env) : M unit :=
  m <- read_mcp ;;
  server_lifespan env m.

(** The whole file; [name_is_main] is [__name__ == "__main__"]. *)
Definition main (name_is_main : bool) (env : Env) : M unit :=
  module_init ;;
  if name_is_main then mcp_run env else ret tt.

End Imports.

(** ** asset_creation_strategy (lines 53-66)

    The Python literals spell the line separator as a doubled backslash
    followed by [n], which denotes the two characters backslash and [n].
    Rocq strings have no escapes, so the same two characters are written
    here as a single backslash followed by [n]. *)
Definition asset_creation_strategy : M string :=
  ret
    ("Available Unity MCP Server Tools:\n\n"
     ++ "For detailed usage, please refer to the specific tool's documentation.\n\n"
     ++ "- `manage_editor`: Controls editor state (play/pause/stop) and queries info (state, selection).\n"
     ++ "- `execute_menu_item`: Executes Unity Editor menu items by path (e.g., 'File/Save Project').\n"
     ++ "- `read_console`: Reads or clears Unity console messages, with filtering options.\n"
     ++ "- `manage_scene`: Manages scenes (load, save, create, get hierarchy).\n"
     ++ "- `manage_gameobject`: Manages GameObjects in the scene (CRUD, find, components, assign properties).\n"
     ++ "- `manage_script`: Manages C# script files (CRUD).\n"
     ++ "- `manage_asset`: Manages project assets (import, create, modify, delete, search).\n\n")%string.

(** ** Observations on traces and strings *)

Definition is_get_unity_connection (ev : event) : bool :=
  match ev with Call_get_unity_connection => true | _ => false end.

Definition is_register_all_tools (ev : event) : bool :=
  match ev with Call_register_all_tools => true | _ => false end.

Definition count (p : event -> bool) (t : list event) : nat :=
  List.length (filter p t).

(** The events that follow the first suspension at [yield]. *)
Fixpoint after_yield (t : list event) : list event :=
  match t with
  | [] => []
  | Yield _ :: t' => t'
  | _ :: t' => after_yield t'
  end.

(** The events up to, and without, the first suspension at [yield]. *)
Fixpoint before_yield (t : list event) : list event :=
  match t with
  | [] => []
  | Yield _ :: _ => []
  | ev :: t' => ev :: before_yield t'
  end.

Fixpoint yielded (t : list event) : list context :=
  match t with
  | [] => []
  | Yield ctx :: t' => ctx :: yielded t'
  | _ :: t' => yielded t'
  end.

Fixpoint assigned (t : list event) : list (option UnityConnection) :=
  match t with
  | [] => []
  | Assign v :: t' => v :: assigned t'
  | _ :: t' => assigned t'
  end.

Fixpoint disconnect_receivers (t : list event) : list (option UnityConnection) :=
  match t with
  | [] => []
  | Call_disconnect r :: t' => r :: disconnect_receivers t'
  | _ :: t' => disconnect_receivers t'
  end.

Fixpoint warnings (t : list event) : list string :=
  match t with
  | [] => []
  | Log WARNING msg :: t' => msg :: warnings t'
  | _ :: t' => warnings t'
  end.

Definition is_None {A} (o : option A) : bool :=
  match o with None => true | Some _ => false end.

Definition is_present (o : option UnityConnection) : bool :=
  negb (is_None o).

(** [sub in s] on Python strings. *)
Fixpoint contains (sub s : string) : bool :=
  String.prefix sub s ||
  match s with
  | EmptyString => false
  | String _ s' => contains sub s'
  end.

(** Non-overlapping occurrences, as [s.count(sub)] counts a two-character
    [sub] whose characters differ. *)
Fixpoint occurrences (sub s : string) : nat :=
  match s with
  | EmptyString => 0
  | String _ s' => (if String.prefix sub s then 1 else 0) + occurrences sub s'
  end.

Definition backslash_n : string := String "092"%char (String "n"%char EmptyString).
Definition newline : string := String "010"%char EmptyString.

(** The tools a finished run leaves registered on [mcp]. *)
Definition exposed_tools (r : Run unit) : option (list string) :=
  option_map mcp_tools (mcp (final r)).

(** The reading of "a failed startup is surfaced to the caller": whatever
    [get_unity_connection] raises is what [server_lifespan] raises. *)
Definition surfaces_startup_error (env : Env) (server : FastMCP) (g : Globals) : Prop :=
  forall e, get_unity_connection_does env = Raise e ->
            outcome (server_lifespan env server g) = Raise e.

(** ** Sample worlds *)

Definition g0 : Globals := {| _unity_connection := None; mcp := None |}.

(** The server object of line 42, before anything is registered on it. *)
Definition srv0 : FastMCP :=
  fresh_FastMCP "UnityMCP"
                "Unity Editor integration via Model Context Protocol"
                "server_lifespan".

Definition ConnectionError : exn :=
  Exn "ConnectionError" true "Could not connect to Unity".

Definition KeyboardInterrupt : exn :=
  Exn "KeyboardInterrupt" false "".

Definition RuntimeError : exn :=
  Exn "RuntimeError" true "remote call failed".

Definition conn1 : UnityConnection :=
  {| conn_id := 1; conn_bool := true; disconnect_raises := None |}.

(** A block that serves and returns, leaving the module's global alone. *)
Definition serve_ok (ctx : context) (v : option UnityConnection)
  : option UnityConnection * result unit := (v, Return tt).

(** A block that fails while serving, leaving the module's global alone. *)
Definition serve_crash (ctx : context) (v : option UnityConnection)
  : option UnityConnection * result unit := (v, Raise RuntimeError).

(** The editor is not running: the connection attempt raises. *)
Definition env_down : Env :=
  {| get_unity_connection_does := Raise ConnectionError; with_block := serve_ok |}.

(** The editor is running. *)
Definition env_up : Env :=
  {| get_unity_connection_does := Return conn1; with_block := serve_ok |}.

Definition env_up_crash : Env :=
  {| get_unity_connection_does := Return conn1; with_block := serve_crash |}.

(** The process is interrupted while it connects. *)
Definition env_interrupted : Env :=
  {| get_unity_connection_does := Raise KeyboardInterrupt; with_block := serve_ok |}.

(** A registration that adds the tools the prompt lists. *)
Definition register_sample (m : FastMCP) : FastMCP :=
  {| mcp_name := mcp_name m;
     mcp_description := mcp_description m;
     mcp_lifespan := mcp_lifespan m;
     mcp_tools := mcp_tools m ++
       ["manage_editor"; "execute_menu_item"; "read_console"; "manage_scene";
        "manage_gameobject"; "manage_script"; "manage_asset"];
     mcp_prompts := mcp_prompts m |}.

(** ** Further observations on runs *)

(** The startup block lets the exception of [get_unity_connection] through:
    it is not an instance of [Exception]. *)
Definition startup_propagates (env : Env) : bool :=
  match get_unity_connection_does env with
  | Return _ => false
  | Raise e => negb (is_Exception e)
  end.

(** The value the startup block stores in [_unity_connection] when it does
    not propagate: the connection, or [None] from the handler. *)
Definition startup_value (env : Env) : option UnityConnection :=
  match get_unity_connection_does env with
  | Return c => Some c
  | Raise _ => None
  end.

(** What the block under [async with] does when it is handed the context of
    this run: the value it leaves in the global, and how it ends. *)
Definition left_by_block (env : Env) : option UnityConnection :=
  fst (with_block env [("bridge", startup_value env)] (startup_value env)).

Definition block_outcome (env : Env) : result unit :=
  snd (with_block env [("bridge", startup_value env)] (startup_value env)).

(** The [finally] clause meets no exception on the value [v]: it does not
    call [disconnect], or the call returns. *)
Definition teardown_returns (v : option UnityConnection) : bool :=
  match v with
  | None => true
  | Some c => negb (conn_bool c) || is_None (disconnect_raises c)
  end.

(** The events before the first one that satisfies [p]. *)
Fixpoint until (p : event -> bool) (t : list event) : list event :=
  match t with
  | [] => []
  | ev :: t' => if p ev then [] else ev :: until p t'
  end.

Definition is_log (lvl : level) (msg : string) (ev : event) : bool :=
  match ev, lvl with
  | Log INFO m, INFO => String.eqb m msg
  | Log WARNING m, WARNING => String.eqb m msg
  | _, _ => false
  end.

Definition is_warning (ev : event) : bool :=
  match ev with Log WARNING _ => true | _ => false end.

(** More sample worlds. *)

Definition OSError : exn := Exn "OSError" true "socket already closed".

Definition conn2 : UnityConnection :=
  {| conn_id := 2; conn_bool := true; disconnect_raises := None |}.

(** A connection whose [disconnect] raises. *)
Definition conn_broken : UnityConnection :=
  {| conn_id := 3; conn_bool := true; disconnect_raises := Some OSError |}.

(** A block that rebinds the module's global to another connection. *)
Definition serve_rebind (ctx : context) (v : option UnityConnection)
  : option UnityConnection * result unit := (Some conn2, Return tt).

Definition env_rebind : Env :=
  {| get_unity_connection_does := Return conn1; with_block := serve_rebind |}.

Definition env_broken_crash : Env :=
  {| get_unity_connection_does := Return conn_broken; with_block := serve_crash |}.

(** The editor is running, the block serves and returns without touching the
    global, and [disconnect] raises at shutdown. *)
Definition env_broken : Env :=
  {| get_unity_connection_does := Return conn_broken; with_block := serve_ok |}.

(** The reading of "torn down on every exit": whenever the startup call
    returned a connection, [disconnect] is called exactly once, on it, and
    [_unity_connection] is [None] when [server_lifespan] is over. *)
Definition torn_down_on_exit (env : Env) (server : FastMCP) (g : Globals) : Prop :=
  forall c, get_unity_connection_does env = Return c ->
            disconnect_receivers (events (server_lifespan env server g)) = [Some c]
            /\ _unity_connection (final (server_lifespan env server g)) = None.

(** ** Proof steps *)

(** Case analysis on everything the goal still branches on. *)
Ltac run_cases :=
  repeat match goal with
         | |- context [match ?x with _ => _ end] => destruct x eqn:?; cbn in *
         | |- context [if ?x then _ else _] => destruct x eqn:?; cbn in *
         end.

(** * Sanity runs *)

Example run_env_up :
  server_lifespan env_up srv0 g0 =
  {| final := g0;
     events := [Log INFO "UnityMCP server starting up";
                Call_get_unity_connection;
                Assign (Some conn1);
                Log INFO "Connected to Unity on startup";
                Yield [("bridge", Some conn1)];
                Call_disconnect (Some conn1);
                Assign None;
                Log INFO "UnityMCP server shut down"];
     outcome := Return tt |}.
Proof. reflexivity. Qed.

Example run_env_down :
  server_lifespan env_down srv0 g0 =
  {| final := g0;
     events := [Log INFO "UnityMCP server starting up";
                Call_get_unity_connection;
                Log WARNING "Could not connect to Unity on startup: Could not connect to Unity";
                Assign None;
                Yield [("bridge", None)];
                Log INFO "UnityMCP server shut down"];
     outcome := Return tt |}.
Proof. reflexivity. Qed.

Example run_env_up_crash :
  outcome (server_lifespan env_up_crash srv0 g0) = Raise RuntimeError
  /\ disconnect_receivers (events (server_lifespan env_up_crash srv0 g0)) = [Some conn1]
  /\ _unity_connection (final (server_lifespan env_up_crash srv0 g0)) = None.
Proof. repeat split. Qed.

Example run_env_interrupted :
  server_lifespan env_interrupted srv0 g0 =
  {| final := g0;
     events := [Log INFO "UnityMCP server starting up"; Call_get_unity_connection];
     outcome := Raise KeyboardInterrupt |}.
Proof. reflexivity. Qed.

Example prompt_length :
  match outcome (asset_creation_strategy g0) with
  | Return s => String.length s = 696 /\ occurrences backslash_n s = 12
  | Raise _ => False
  end.
Proof. split; reflexivity. Qed.

(** * Running the blocks of [server_lifespan] *)

Lemma server_lifespan_blocks env server g :
  server_lifespan env server g = (startup env ;; try_finally (serve env) teardown) g.
Proof.
  destruct env as [[c | [cls [|] msg]] block]; reflexivity.
Qed.

(** The connection attempt returned [c]. *)
Lemma startup_connected env g c :
  get_unity_connection_does env = Return c ->
  startup env g =
    {| final := set_unity_connection (Some c) g;
       events := [Log INFO "UnityMCP server starting up";
                  Call_get_unity_connection;
                  Assign (Some c);
                  Log INFO "Connected to Unity on startup"];
       outcome := Return tt |}.
Proof.
  destruct env as [does block]. cbn. intros ->. reflexivity.
Qed.

(** The connection attempt raised an instance of [Exception]. *)
Lemma startup_failed env g e :
  get_unity_connection_does env = Raise e ->
  is_Exception e = true ->
  startup env g =
    {| final := set_unity_connection None g;
       events := [Log INFO "UnityMCP server starting up";
                  Call_get_unity_connection;
                  Log WARNING ("Could not connect to Unity on startup: " ++ str e);
                  Assign None];
       outcome := Return tt |}.
Proof.
  destruct env as [does block], e as [cls exc msg]. cbn. intros -> ->. reflexivity.
Qed.

(** The connection attempt raised something that is not an [Exception]. *)
Lemma startup_interrupted env g e :
  get_unity_connection_does env = Raise e ->
  is_Exception e = false ->
  startup env g =
    {| final := g;
       events := [Log INFO "UnityMCP server starting up"; Call_get_unity_connection];
       outcome := Raise e |}.
Proof.
  destruct env as [does block], e as [cls exc msg]. cbn. intros -> ->. reflexivity.
Qed.

(** The [finally] clause, by the value it finds in the global. *)
Lemma teardown_run g :
  teardown g =
    match _unity_connection g with
    | Some c =>
        if conn_bool c then
          match disconnect_raises c with
          | None =>
              {| final := set_unity_connection None g;
                 events := [Call_disconnect (Some c); Assign None;
                            Log INFO "UnityMCP server shut down"];
                 outcome := Return tt |}
          | Some e =>
              {| final := g; events := [Call_disconnect (Some c)]; outcome := Raise e |}
          end
        else
          {| final := g; events := [Log INFO "UnityMCP server shut down"];
             outcome := Return tt |}
    | None =>
        {| final := g; events := [Log INFO "UnityMCP server shut down"];
           outcome := Return tt |}
    end.
Proof.
  destruct g as [[[id b [e|]]|] m]; [destruct b | destruct b |]; reflexivity.
Qed.

(** One execution of [server_lifespan]: the startup block; then, unless it
    raised, the suspension, during which the block under [async with] runs,
    and the [finally] clause in the state that block left. *)
Lemma server_lifespan_run env server g :
  server_lifespan env server g =
    match outcome (startup env g) with
    | Raise e =>
        {| final := final (startup env g);
           events := events (startup env g);
           outcome := Raise e |}
    | Return _ =>
        {| final :=
             final (teardown (set_unity_connection
               (fst (with_block env
                       [("bridge", _unity_connection (final (startup env g)))]
                       (_unity_connection (final (startup env g)))))
               (final (startup env g))));
           events :=
             events (startup env g) ++
             Yield [("bridge", _unity_connection (final (startup env g)))] ::
             events (teardown (set_unity_connection
               (fst (with_block env
                       [("bridge", _unity_connection (final (startup env g)))]
                       (_unity_connection (final (startup env g)))))
               (final (startup env g))));
           outcome :=
             match outcome (teardown (set_unity_connection
               (fst (with_block env
                       [("bridge", _unity_connection (final (startup env g)))]
                       (_unity_connection (final (startup env g)))))
               (final (startup env g)))) with
             | Return _ =>
                 snd (with_block env
                        [("bridge", _unity_connection (final (startup env g)))]
                        (_unity_connection (final (startup env g))))
             | Raise e' => Raise e'
             end |}
    end.
Proof.
  rewrite server_lifespan_blocks.
  unfold bind at 1.
  destruct (startup env g) as [gs es [[]|e]];
    cbv [final events outcome]; [| reflexivity].
  unfold try_finally, serve, bind, read_unity_connection, yield_.
  cbv [final events outcome].
  destruct (with_block env [("bridge", _unity_connection gs)] (_unity_connection gs))
    as [v r].
  cbv [final events outcome fst snd]. reflexivity.
Qed.

Arguments server_lifespan : simpl never.
Arguments startup : simpl never.
Arguments teardown : simpl never.

(** The shape of the trace around the suspension, for a startup block that
    returned: everything before the [yield] is the startup block's, and
    everything after it is the [finally] clause's. *)
Lemma lifespan_connected env server g c :
  get_unity_connection_does env = Return c ->
  before_yield (events (server_lifespan env server g)) =
    [Log INFO "UnityMCP server starting up";
     Call_get_unity_connection;
     Assign (Some c);
     Log INFO "Connected to Unity on startup"]
  /\ yielded (events (server_lifespan env server g)) = [[("bridge", Some c)]].
Proof.
  intros Hget. rewrite server_lifespan_run, (startup_connected env g c Hget).
  cbn. rewrite teardown_run. cbn.
  run_cases; split; reflexivity.
Qed.

Lemma lifespan_failed env server g e :
  get_unity_connection_does env = Raise e ->
  is_Exception e = true ->
  before_yield (events (server_lifespan env server g)) =
    [Log INFO "UnityMCP server starting up";
     Call_get_unity_connection;
     Log WARNING ("Could not connect to Unity on startup: " ++ str e);
     Assign None]
  /\ yielded (events (server_lifespan env server g)) = [[("bridge", None)]].
Proof.
  intros Hget Hexc. rewrite server_lifespan_run, (startup_failed env g e Hget Hexc).
  cbn. rewrite teardown_run. cbn.
  run_cases; split; reflexivity.
Qed.

(** An exception outside [Exception] is not handled: the generator never
    reaches its [yield] and nothing of the teardown runs. *)
Lemma lifespan_interrupted env server g e :
  get_unity_connection_does env = Raise e ->
  is_Exception e = false ->
  server_lifespan env server g =
    {| final := g;
       events := [Log INFO "UnityMCP server starting up"; Call_get_unity_connection];
       outcome := Raise e |}.
Proof.
  intros Hget Hexc.
  rewrite server_lifespan_run, (startup_interrupted env g e Hget Hexc). reflexivity.
Qed.

(** A failed startup followed by a block that leaves the global alone. *)
Lemma lifespan_failed_framed env server g e :
  get_unity_connection_does env = Raise e ->
  is_Exception e = true ->
  fst (with_block env [("bridge", None)] None) = None ->
  server_lifespan env server g =
    {| final := set_unity_connection None g;
       events := [Log INFO "UnityMCP server starting up";
                  Call_get_unity_connection;
                  Log WARNING ("Could not connect to Unity on startup: " ++ str e);
                  Assign None;
                  Yield [("bridge", None)];
                  Log INFO "UnityMCP server shut down"];
       outcome := snd (with_block env [("bridge", None)] None) |}.
Proof.
  intros Hget Hexc Hframe.
  rewrite server_lifespan_run, (startup_failed env g e Hget Hexc).
  cbn. rewrite Hframe, teardown_run. reflexivity.
Qed.

(** When [disconnect] itself raises, the reset of the global and the last
    log record are skipped and the exception of [disconnect] is the outcome. *)
Lemma teardown_disconnect_raises env server g c e :
  get_unity_connection_does env = Return c ->
  conn_bool c = true ->
  disconnect_raises c = Some e ->
  fst (with_block env [("bridge", Some c)] (Some c)) = Some c ->
  after_yield (events (server_lifespan env server g)) = [Call_disconnect (Some c)]
  /\ _unity_connection (final (server_lifespan env server g)) = Some c
  /\ outcome (server_lifespan env server g) = Raise e.
Proof.
  intros Hget Hbool Hdis Hframe.
  rewrite server_lifespan_run, (startup_connected env g c Hget).
  cbn. rewrite Hframe, teardown_run. cbn. rewrite Hbool, Hdis. cbn.
  repeat split.
Qed.

(** [server_lifespan] never touches [mcp] and registers nothing. *)
Lemma lifespan_leaves_registration env server g :
  mcp (final (server_lifespan env server g)) = mcp g
  /\ count is_register_all_tools (events (server_lifespan env server g)) = 0.
Proof.
  rewrite server_lifespan_run.
  destruct (get_unity_connection_does env) as [c | e] eqn:Hget;
    [ rewrite (startup_connected env g c Hget)
    | destruct (is_Exception e) eqn:Hexc;
      [ rewrite (startup_failed env g e Hget Hexc)
      | rewrite (startup_interrupted env g e Hget Hexc) ] ];
    cbn; rewrite ?teardown_run; cbn;
    run_cases; split; reflexivity.
Qed.

Lemma module_init_run register_all_tools g :
  module_init register_all_tools g =
    {| final := {| _unity_connection := None;
                   mcp := Some (add_prompt "asset_creation_strategy"
                                           (register_all_tools srv0)) |};
       events := [Call_basicConfig; Assign None; Call_FastMCP "UnityMCP";
                  Call_register_all_tools; Register_prompt "asset_creation_strategy"];
       outcome := Return tt |}.
Proof. reflexivity. Qed.

(** * Claims about [server_lifespan] *)

(** C1 (as amended).  When [get_unity_connection] raises [e] at startup:
    if [e] is an instance of [Exception], [server_lifespan] handles it, logs
    exactly one warning that carries [str(e)], suspends with the context
    [{"bridge": None}], and returns normally once the block under
    [async with] has returned (leaving the global alone); [e] is not raised
    to the caller.  Only an [e] outside [Exception] is propagated, before
    any [yield]. *)
Theorem startup_error_logged_not_raised env server g e :
  get_unity_connection_does env = Raise e ->
  if is_Exception e then
    warnings (events (server_lifespan env server g)) =
      [("Could not connect to Unity on startup: " ++ str e)%string]
    /\ yielded (events (server_lifespan env server g)) = [[("bridge", None)]]
    /\ (with_block env [("bridge", None)] None = (None, Return tt) ->
        outcome (server_lifespan env server g) = Return tt)
  else
    outcome (server_lifespan env server g) = Raise e
    /\ yielded (events (server_lifespan env server g)) = [].
Proof.
  intros Hget. destruct (is_Exception e) eqn:Hexc.
  - split; [| split].
    + rewrite server_lifespan_run, (startup_failed env g e Hget Hexc).
      cbn. rewrite teardown_run. cbn. run_cases; reflexivity.
    + apply (lifespan_failed env server g e Hget Hexc).
    + intros Hblock.
      rewrite (lifespan_failed_framed env server g e Hget Hexc);
        rewrite Hblock; reflexivity.
  - rewrite (lifespan_interrupted env server g e Hget Hexc). split; reflexivity.
Qed.

Lemma startup_error_logged_not_raised_witness :
  get_unity_connection_does env_down = Raise ConnectionError
  /\ warnings (events (server_lifespan env_down srv0 g0)) =
       ["Could not connect to Unity on startup: Could not connect to Unity"]
  /\ yielded (events (server_lifespan env_down srv0 g0)) = [[("bridge", None)]]
  /\ (with_block env_down [("bridge", None)] None = (None, Return tt) ->
      outcome (server_lifespan env_down srv0 g0) = Return tt).
Proof.
  split; [reflexivity |].
  exact (startup_error_logged_not_raised env_down srv0 g0 ConnectionError eq_refl).
Defined.

(** C1 (as stated) fails: with the editor down, [get_unity_connection]
    raises [ConnectionError], yet [server_lifespan] returns normally. *)
Lemma startup_error_not_surfaced :
  get_unity_connection_does env_down = Raise ConnectionError
  /\ outcome (server_lifespan env_down srv0 g0) = Return tt
  /\ ~ surfaces_startup_error env_down srv0 g0.
Proof.
  split; [reflexivity | split; [reflexivity |]].
  intros H. specialize (H ConnectionError eq_refl). discriminate H.
Qed.

(** C2.  In every execution of [server_lifespan], whatever the outside world
    does, [get_unity_connection] is called exactly once, that call comes
    before the generator suspends at [yield], and after the [yield] there is
    no further call and the only value stored in [_unity_connection] is
    [None]; over the whole execution at most one connection is ever stored. *)
Theorem single_connection_attempt env server g :
  count is_get_unity_connection (events (server_lifespan env server g)) = 1
  /\ count is_get_unity_connection
       (before_yield (events (server_lifespan env server g))) = 1
  /\ count is_get_unity_connection
       (after_yield (events (server_lifespan env server g))) = 0
  /\ forallb is_None (assigned (after_yield (events (server_lifespan env server g)))) = true
  /\ List.length (filter is_present (assigned (events (server_lifespan env server g)))) <= 1.
Proof.
  rewrite server_lifespan_run.
  destruct (get_unity_connection_does env) as [c | e] eqn:Hget;
    [ rewrite (startup_connected env g c Hget)
    | destruct (is_Exception e) eqn:Hexc;
      [ rewrite (startup_failed env g e Hget Hexc)
      | rewrite (startup_interrupted env g e Hget Hexc) ] ];
    cbn; rewrite ?teardown_run; cbn;
    run_cases; repeat split; cbn; lia.
Qed.

(** C3 (as amended).  If the startup call returned a connection [c] that is
    a true object, and the block under [async with] left the global alone,
    then on every exit of the block, by return or by exception, [disconnect]
    is called exactly once, on [c]; and when that call returns, the teardown
    is exactly the call, then the reset of [_unity_connection] to [None],
    then the shutdown log record, the global is [None] at the end, and the
    outcome of the block (its exception, if it raised) is the outcome of
    [server_lifespan]. *)
Theorem teardown_on_every_exit env server g c :
  get_unity_connection_does env = Return c ->
  conn_bool c = true ->
  fst (with_block env [("bridge", Some c)] (Some c)) = Some c ->
  disconnect_receivers (events (server_lifespan env server g)) = [Some c]
  /\ (disconnect_raises c = None ->
      after_yield (events (server_lifespan env server g)) =
        [Call_disconnect (Some c); Assign None; Log INFO "UnityMCP server shut down"]
      /\ _unity_connection (final (server_lifespan env server g)) = None
      /\ outcome (server_lifespan env server g) =
           snd (with_block env [("bridge", Some c)] (Some c))).
Proof.
  intros Hget Hbool Hframe.
  rewrite server_lifespan_run, (startup_connected env g c Hget).
  cbn. rewrite Hframe, teardown_run. cbn. rewrite Hbool.
  destruct (disconnect_raises c) as [e|]; cbn.
  - split; [reflexivity | discriminate].
  - split; [reflexivity | intros _; repeat split].
Qed.

Lemma teardown_on_every_exit_witness :
  (get_unity_connection_does env_up_crash = Return conn1
   /\ conn_bool conn1 = true
   /\ fst (with_block env_up_crash [("bridge", Some conn1)] (Some conn1)) = Some conn1)
  /\ disconnect_receivers (events (server_lifespan env_up_crash srv0 g0)) = [Some conn1]
  /\ (disconnect_raises conn1 = None ->
      after_yield (events (server_lifespan env_up_crash srv0 g0)) =
        [Call_disconnect (Some conn1); Assign None; Log INFO "UnityMCP server shut down"]
      /\ _unity_connection (final (server_lifespan env_up_crash srv0 g0)) = None
      /\ outcome (server_lifespan env_up_crash srv0 g0) =
           snd (with_block env_up_crash [("bridge", Some conn1)] (Some conn1))).
Proof.
  split; [repeat split |].
  apply (teardown_on_every_exit env_up_crash srv0 g0 conn1); reflexivity.
Defined.

(** C3 (as stated) fails: the editor is connected at startup and the block
    returns without touching the global, but [disconnect] raises; it has been
    called once, yet [_unity_connection] still holds the connection when
    [server_lifespan] ends, with the exception of [disconnect]. *)
Lemma teardown_reset_skipped :
  get_unity_connection_does env_broken = Return conn_broken
  /\ disconnect_receivers (events (server_lifespan env_broken srv0 g0)) =
       [Some conn_broken]
  /\ _unity_connection (final (server_lifespan env_broken srv0 g0)) =
       Some conn_broken
  /\ outcome (server_lifespan env_broken srv0 g0) = Raise OSError
  /\ ~ torn_down_on_exit env_broken srv0 g0.
Proof.
  repeat split.
  intros H. destruct (H conn_broken eq_refl) as [_ Hnone].
  vm_compute in Hnone. discriminate Hnone.
Qed.

(** C4.  If the startup call raised (an instance of [Exception]) and the
    block under [async with] left the global alone, then there is exactly one
    call of [get_unity_connection] in the whole execution, the only value the
    execution stores in [_unity_connection] is [None], the context it yields
    has a [None] bridge, nothing is disconnected, and [_unity_connection] is
    [None] when the execution ends. *)
Theorem no_retry_after_failed_startup env server g e :
  get_unity_connection_does env = Raise e ->
  is_Exception e = true ->
  fst (with_block env [("bridge", None)] None) = None ->
  count is_get_unity_connection (events (server_lifespan env server g)) = 1
  /\ assigned (events (server_lifespan env server g)) = [None]
  /\ yielded (events (server_lifespan env server g)) = [[("bridge", None)]]
  /\ disconnect_receivers (events (server_lifespan env server g)) = []
  /\ _unity_connection (final (server_lifespan env server g)) = None.
Proof.
  intros Hget Hexc Hframe.
  rewrite (lifespan_failed_framed env server g e Hget Hexc Hframe).
  repeat split.
Qed.

Lemma no_retry_after_failed_startup_witness :
  (get_unity_connection_does env_down = Raise ConnectionError
   /\ is_Exception ConnectionError = true
   /\ fst (with_block env_down [("bridge", None)] None) = None)
  /\ count is_get_unity_connection (events (server_lifespan env_down srv0 g0)) = 1
  /\ assigned (events (server_lifespan env_down srv0 g0)) = [None]
  /\ yielded (events (server_lifespan env_down srv0 g0)) = [[("bridge", None)]]
  /\ disconnect_receivers (events (server_lifespan env_down srv0 g0)) = []
  /\ _unity_connection (final (server_lifespan env_down srv0 g0)) = None.
Proof.
  split; [repeat split |].
  apply (no_retry_after_failed_startup env_down srv0 g0 ConnectionError); reflexivity.
Defined.

(** C6.  If the startup call raised (an instance of [Exception]),
    [server_lifespan] does not stop there: after the warning and the store of
    [None] it suspends exactly once, handing over the context
    [{"bridge": None}], and (the block leaving the global alone) its outcome
    is the outcome of the block that ran with that context. *)
Theorem failed_startup_yields_none_bridge env server g e :
  get_unity_connection_does env = Raise e ->
  is_Exception e = true ->
  before_yield (events (server_lifespan env server g)) =
    [Log INFO "UnityMCP server starting up";
     Call_get_unity_connection;
     Log WARNING ("Could not connect to Unity on startup: " ++ str e);
     Assign None]
  /\ yielded (events (server_lifespan env server g)) = [[("bridge", None)]]
  /\ (fst (with_block env [("bridge", None)] None) = None ->
      outcome (server_lifespan env server g) =
        snd (with_block env [("bridge", None)] None)).
Proof.
  intros Hget Hexc.
  destruct (lifespan_failed env server g e Hget Hexc) as [Hbefore Hyield].
  repeat split; [exact Hbefore | exact Hyield |].
  intros Hframe.
  rewrite (lifespan_failed_framed env server g e Hget Hexc Hframe). reflexivity.
Qed.

Lemma failed_startup_yields_none_bridge_witness :
  (get_unity_connection_does env_down = Raise ConnectionError
   /\ is_Exception ConnectionError = true)
  /\ before_yield (events (server_lifespan env_down srv0 g0)) =
       [Log INFO "UnityMCP server starting up";
        Call_get_unity_connection;
        Log WARNING "Could not connect to Unity on startup: Could not connect to Unity";
        Assign None]
  /\ yielded (events (server_lifespan env_down srv0 g0)) = [[("bridge", None)]]
  /\ (fst (with_block env_down [("bridge", None)] None) = None ->
      outcome (server_lifespan env_down srv0 g0) =
        snd (with_block env_down [("bridge", None)] None)).
Proof.
  split; [split; reflexivity |].
  apply (failed_startup_yields_none_bridge env_down srv0 g0 ConnectionError); reflexivity.
Defined.

(** C7.  In every execution of [server_lifespan], whatever the outside world
    does (the block may even rebind the global), every [disconnect] call has
    a receiver that is not [None]; indeed a receiver whose truth value is
    true.  The attribute lookup of the teardown never meets [None]. *)
Theorem disconnect_receiver_present env server g :
  forallb is_present (disconnect_receivers (events (server_lifespan env server g))) = true
  /\ forallb truth (disconnect_receivers (events (server_lifespan env server g))) = true.
Proof.
  rewrite server_lifespan_run.
  destruct (get_unity_connection_does env) as [c | e] eqn:Hget;
    [ rewrite (startup_connected env g c Hget)
    | destruct (is_Exception e) eqn:Hexc;
      [ rewrite (startup_failed env g e Hget Hexc)
      | rewrite (startup_interrupted env g e Hget Hexc) ] ];
    cbn; rewrite ?teardown_run; cbn;
    run_cases; split; try reflexivity; cbn; rewrite ?andb_true_r; assumption.
Qed.

(** * Claims about the import-time statements and the prompt *)

(** C5.  Importing the module calls [register_all_tools] exactly once, among
    the import-time statements and under no condition; a run of the file
    calls it exactly once whether or not it goes on to start the server and
    whatever the connection attempt and the served block do, and leaves on
    [mcp] the tools [register_all_tools] puts on the fresh server, so any two
    runs expose the same tools. *)
Theorem tools_registered_once
    (register_all_tools : FastMCP -> FastMCP)
    (name_is_main name_is_main' : bool) (env env' : Env) (g g' : Globals) :
  events (module_init register_all_tools g) =
    [Call_basicConfig; Assign None; Call_FastMCP "UnityMCP";
     Call_register_all_tools; Register_prompt "asset_creation_strategy"]
  /\ count is_register_all_tools
       (events (main register_all_tools name_is_main env g)) = 1
  /\ exposed_tools (main register_all_tools name_is_main env g) =
       Some (mcp_tools (register_all_tools srv0))
  /\ exposed_tools (main register_all_tools name_is_main env g) =
       exposed_tools (main register_all_tools name_is_main' env' g').
Proof.
  assert (Hrun : forall flag e0 h,
             count is_register_all_tools (events (main register_all_tools flag e0 h)) = 1
             /\ exposed_tools (main register_all_tools flag e0 h) =
                  Some (mcp_tools (register_all_tools srv0))).
  { intros flag e0 h.
    unfold exposed_tools, main, bind. rewrite module_init_run.
    cbn [outcome final events].
    destruct flag; [| split; reflexivity].
    unfold mcp_run, bind, read_mcp, ret. cbn [outcome final events mcp].
    match goal with
    | |- context [server_lifespan ?e ?s ?w] =>
        destruct (lifespan_leaves_registration e s w) as [Hmcp Hcount]
    end.
    rewrite Hmcp. split; [| reflexivity].
    unfold count in *. rewrite !filter_app, !length_app, Hcount. reflexivity. }
  split; [reflexivity |].
  destruct (Hrun name_is_main env g) as [Hcount Htools].
  destruct (Hrun name_is_main' env' g') as [_ Htools'].
  repeat split; [exact Hcount | exact Htools |].
  rewrite Htools, Htools'. reflexivity.
Qed.

(** C8.  [asset_creation_strategy] returns the same string whatever the
    state it is called in, changes nothing and performs no effect; the string
    contains the two characters backslash, [n] and contains no newline
    character. *)
Theorem asset_creation_strategy_constant (g g' : Globals) :
  exists s : string,
    outcome (asset_creation_strategy g) = Return s
    /\ outcome (asset_creation_strategy g') = Return s
    /\ final (asset_creation_strategy g) = g
    /\ events (asset_creation_strategy g) = []
    /\ contains backslash_n s = true
    /\ contains newline s = false.
Proof.
  eexists. repeat split; vm_compute; reflexivity.
Qed.

Example run_main_editor_down :
  events (main register_sample true env_down g0) =
    [Call_basicConfig; Assign None; Call_FastMCP "UnityMCP";
     Call_register_all_tools; Register_prompt "asset_creation_strategy";
     Log INFO "UnityMCP server starting up";
     Call_get_unity_connection;
     Log WARNING "Could not connect to Unity on startup: Could not connect to Unity";
     Assign None;
     Yield [("bridge", None)];
     Log INFO "UnityMCP server shut down"]
  /\ exposed_tools (main register_sample true env_down g0) =
       Some ["manage_editor"; "execute_menu_item"; "read_console"; "manage_scene";
             "manage_gameobject"; "manage_script"; "manage_asset"].
Proof. split; reflexivity. Qed.

(** * Further properties of [server_lifespan] *)

(** Case analysis on the startup block, then on the block under
    [async with] and on the [finally] clause. *)
Ltac lifespan_by_cases env g :=
  unfold left_by_block, block_outcome, startup_value, startup_propagates in *;
  rewrite ?server_lifespan_run;
  let c := fresh "c" in
  let e := fresh "e" in
  let Hget := fresh "Hget" in
  let Hexc := fresh "Hexc" in
  destruct (get_unity_connection_does env) as [c | e] eqn:Hget;
    [ rewrite ?(startup_connected env _ c Hget)
    | destruct (is_Exception e) eqn:Hexc;
      [ rewrite ?(startup_failed env _ e Hget Hexc)
      | rewrite ?(startup_interrupted env _ e Hget Hexc) ] ];
  cbn in *; rewrite ?teardown_run; cbn in *.

Lemma count_until_le p q t : count p (until q t) <= count p t.
Proof.
  unfold count. induction t as [| ev t IH]; cbn [until filter length]; [lia |].
  destruct (q ev); cbn [filter length]; destruct (p ev); cbn [length]; lia.
Qed.

Lemma main_events register_all_tools name_is_main env g :
  events (main register_all_tools name_is_main env g) =
    [Call_basicConfig; Assign None; Call_FastMCP "UnityMCP";
     Call_register_all_tools; Register_prompt "asset_creation_strategy"] ++
    (if name_is_main
     then events (server_lifespan env
                    (add_prompt "asset_creation_strategy" (register_all_tools srv0))
                    {| _unity_connection := None;
                       mcp := Some (add_prompt "asset_creation_strategy"
                                               (register_all_tools srv0)) |})
     else []).
Proof.
  unfold main, bind. rewrite module_init_run. cbn [outcome final events].
  destruct name_is_main; [| reflexivity].
  unfold mcp_run, bind, read_mcp, ret. cbn [outcome final events mcp].
  reflexivity.
Qed.

(** X1.  When the [finally] clause calls [disconnect] and the call raises,
    the reset of the global and the shutdown log record are skipped, the
    global keeps the connection, and the exception of [disconnect] is the
    outcome of [server_lifespan], whatever the block under [async with] did
    (an exception of the block is replaced). *)
Theorem disconnect_failure_skips_reset env server g c e :
  startup_propagates env = false ->
  left_by_block env = Some c ->
  conn_bool c = true ->
  disconnect_raises c = Some e ->
  after_yield (events (server_lifespan env server g)) = [Call_disconnect (Some c)]
  /\ _unity_connection (final (server_lifespan env server g)) = Some c
  /\ outcome (server_lifespan env server g) = Raise e.
Proof.
  intros Hprop Hleft Hbool Hdis.
  lifespan_by_cases env g; try discriminate;
    rewrite Hleft; cbn; rewrite Hbool, Hdis; cbn; repeat split.
Qed.

Lemma disconnect_failure_skips_reset_witness :
  (startup_propagates env_broken_crash = false
   /\ left_by_block env_broken_crash = Some conn_broken
   /\ conn_bool conn_broken = true
   /\ disconnect_raises conn_broken = Some OSError)
  /\ block_outcome env_broken_crash = Raise RuntimeError
  /\ after_yield (events (server_lifespan env_broken_crash srv0 g0)) =
       [Call_disconnect (Some conn_broken)]
  /\ _unity_connection (final (server_lifespan env_broken_crash srv0 g0)) =
       Some conn_broken
  /\ outcome (server_lifespan env_broken_crash srv0 g0) = Raise OSError.
Proof.
  split; [repeat split |]. split; [reflexivity |].
  apply (disconnect_failure_skips_reset env_broken_crash srv0 g0 conn_broken OSError);
    reflexivity.
Defined.

(** X2.  The [finally] clause decides on the value it finds in the global
    when the block under [async with] is over, not on the connection made at
    startup: [disconnect] is called on that value if it is true, and on
    nothing otherwise (also when the startup connection is then left open);
    a value that is not true is left in the global as it is. *)
Theorem teardown_acts_on_current_global env server g :
  startup_propagates env = false ->
  disconnect_receivers (events (server_lifespan env server g)) =
    (if truth (left_by_block env) then [left_by_block env] else [])
  /\ (truth (left_by_block env) = false ->
      _unity_connection (final (server_lifespan env server g)) = left_by_block env).
Proof.
  intros Hprop.
  lifespan_by_cases env g; try discriminate;
    match goal with
    | |- context [with_block env ?ctx ?v] => destruct (with_block env ctx v) as [v' r]
    end;
    cbn; destruct v' as [[id [|] [e'|]]|]; cbn;
    (split; [reflexivity | intros; try reflexivity; discriminate]).
Qed.

Lemma teardown_acts_on_current_global_witness :
  startup_propagates env_rebind = false
  /\ startup_value env_rebind = Some conn1
  /\ disconnect_receivers (events (server_lifespan env_rebind srv0 g0)) = [Some conn2]
  /\ (truth (left_by_block env_rebind) = false ->
      _unity_connection (final (server_lifespan env_rebind srv0 g0)) =
        left_by_block env_rebind).
Proof.
  split; [reflexivity |]. split; [reflexivity |].
  apply (teardown_acts_on_current_global env_rebind srv0 g0). reflexivity.
Defined.

(** X3.  [server_lifespan] uses neither its [server] argument nor the value
    [_unity_connection] had before the call: two executions in the same
    outside world perform the same effects and end the same way, whatever
    the server object and the globals they start from. *)
Theorem lifespan_ignores_stale_state env server server' g g' :
  events (server_lifespan env server g) = events (server_lifespan env server' g')
  /\ outcome (server_lifespan env server g) = outcome (server_lifespan env server' g').
Proof.
  lifespan_by_cases env g; run_cases; split; reflexivity.
Qed.

(** X4.  The generator suspends exactly once, unless the startup block lets
    an exception through, in which case it never does; in every execution
    [disconnect] is called at most once, and never before the [yield]. *)
Theorem yields_exactly_once env server g :
  List.length (yielded (events (server_lifespan env server g))) =
    (if startup_propagates env then 0 else 1)
  /\ List.length (disconnect_receivers (events (server_lifespan env server g))) <= 1
  /\ disconnect_receivers (before_yield (events (server_lifespan env server g))) = [].
Proof.
  lifespan_by_cases env g; run_cases; repeat split; cbn; lia.
Qed.

(** X5.  When the block under [async with] is over and the [finally] clause
    meets no exception (it calls no [disconnect], or the call returns), no
    true connection is left in [_unity_connection], and the last thing the
    execution does is log the shutdown record. *)
Theorem shutdown_leaves_no_live_connection env server g :
  startup_propagates env = false ->
  teardown_returns (left_by_block env) = true ->
  truth (_unity_connection (final (server_lifespan env server g))) = false
  /\ last (events (server_lifespan env server g)) Call_basicConfig =
       Log INFO "UnityMCP server shut down".
Proof.
  intros Hprop Hret.
  lifespan_by_cases env g; try discriminate;
    match goal with
    | H : context [with_block env ?ctx ?v] |- _ =>
        destruct (with_block env ctx v) as [v' r]
    end;
    cbn in *; destruct v' as [[id [|] [e'|]]|]; cbn in *;
    try discriminate; split; reflexivity.
Qed.

Lemma shutdown_leaves_no_live_connection_witness :
  (startup_propagates env_rebind = false
   /\ teardown_returns (left_by_block env_rebind) = true)
  /\ truth (_unity_connection (final (server_lifespan env_rebind srv0 g0))) = false
  /\ last (events (server_lifespan env_rebind srv0 g0)) Call_basicConfig =
       Log INFO "UnityMCP server shut down".
Proof.
  split; [split; reflexivity |].
  apply (shutdown_leaves_no_live_connection env_rebind srv0 g0); reflexivity.
Defined.

(** X6.  [server_lifespan] adds and hides nothing of what the block under
    [async with] does: when the [finally] clause meets no exception, the
    outcome of [server_lifespan] is the outcome of the block, so an exception
    raised while serving reaches the caller unchanged, after the teardown. *)
Theorem block_outcome_reaches_caller env server g :
  startup_propagates env = false ->
  teardown_returns (left_by_block env) = true ->
  outcome (server_lifespan env server g) = block_outcome env.
Proof.
  intros Hprop Hret.
  lifespan_by_cases env g; try discriminate;
    match goal with
    | H : context [with_block env ?ctx ?v] |- _ =>
        destruct (with_block env ctx v) as [v' r]
    end;
    cbn in *; destruct v' as [[id [|] [e'|]]|]; cbn in *;
    try discriminate; reflexivity.
Qed.

Lemma block_outcome_reaches_caller_witness :
  (startup_propagates env_up_crash = false
   /\ teardown_returns (left_by_block env_up_crash) = true)
  /\ block_outcome env_up_crash = Raise RuntimeError
  /\ outcome (server_lifespan env_up_crash srv0 g0) = block_outcome env_up_crash.
Proof.
  split; [split; reflexivity |]. split; [reflexivity |].
  apply (block_outcome_reaches_caller env_up_crash srv0 g0); reflexivity.
Defined.

(** X7.  The log tells what happened at startup: the record "Connected to
    Unity on startup" is logged exactly when [get_unity_connection] returned,
    a warning is logged exactly when it raised an instance of [Exception]
    (and then only one), and every execution starts by logging the startup
    record. *)
Theorem log_reports_startup env server g :
  existsb (is_log INFO "Connected to Unity on startup")
          (events (server_lifespan env server g)) =
    (match get_unity_connection_does env with Return _ => true | Raise _ => false end)
  /\ count is_warning (events (server_lifespan env server g)) =
       (match get_unity_connection_does env with
        | Return _ => 0
        | Raise e => if is_Exception e then 1 else 0
        end)
  /\ hd_error (events (server_lifespan env server g)) =
       Some (Log INFO "UnityMCP server starting up").
Proof.
  lifespan_by_cases env g; run_cases; repeat split.
Qed.

(** * Further properties of the whole file *)

(** X8.  Importing the module never tries to reach the editor: a connection
    attempt happens only when the file is run as the main program, then
    exactly once, and only after [register_all_tools] has been called and the
    prompt registered; the lifespan is entered (the generator suspends) only
    in that case and only if the startup block did not let an exception
    through. *)
Theorem connection_only_when_run_as_main
    (register_all_tools : FastMCP -> FastMCP)
    (name_is_main : bool) (env : Env) (g : Globals) :
  count is_get_unity_connection
    (events (main register_all_tools name_is_main env g)) =
    (if name_is_main then 1 else 0)
  /\ until is_get_unity_connection
       (events (main register_all_tools name_is_main env g)) =
       [Call_basicConfig; Assign None; Call_FastMCP "UnityMCP";
        Call_register_all_tools; Register_prompt "asset_creation_strategy"] ++
       (if name_is_main then [Log INFO "UnityMCP server starting up"] else [])
  /\ List.length (yielded (events (main register_all_tools name_is_main env g))) =
       (if name_is_main && negb (startup_propagates env) then 1 else 0).
Proof.
  rewrite main_events. destruct name_is_main; [| repeat split].
  lifespan_by_cases env g; run_cases; repeat split.
Qed.
